(** * transcribe.py: the transcription worker

    A shallow embedding of [src/transcribe.py].  The script checks that the
    inference library and the audio file are present, picks the device,
    builds the speech engine, calls it once and prints the joined segment
    texts on standard output; everything else it prints goes to standard
    error.

    What the script calls and does not define (the two imports,
    [os.path.exists], [torch.cuda.is_available], [WhisperModel] and its
    [transcribe] method) is gathered in a record [World].  The script is a
    computation in a small monad: it logs every observable action in order
    and ends with a value or with a raised Python exception.  [main] is
    modelled from the parsed command line on.

    Layout: the definitions ([PyStr], [Py], [Transcribe], [Parts],
    [Samples], [More]) come first, then the lemmas, then one theorem per
    property of the specification, then further properties of the script. *)

From Stdlib Require Import List String Ascii NArith ZArith QArith Bool Lia.
From ExtLib Require Import Structures.Monad.
Import ListNotations.
Import MonadNotation.

Local Open Scope list_scope.

(** ** Python strings *)

Module PyStr.

(** A Python [str] is a sequence of Unicode code points. *)
Definition char := N.
Definition str := list char.

(** A literal of the source, code point by code point. *)
Definition lit (s : string) : str := map N_of_ascii (list_ascii_of_string s).

(** The line terminator [print] appends. *)
Definition newline : str := [10%N].

(** The characters [str.strip()] removes when called without argument: the
    ones for which [str.isspace] holds (CPython's [_Py_ascii_whitespace]
    below 128 and [_PyUnicode_IsWhitespace] above). *)
Definition isspace (c : char) : bool :=
  ((9 <=? c) && (c <=? 13) ||
   (28 <=? c) && (c <=? 32) ||
   (c =? 133) || (c =? 160) || (c =? 5760) ||
   (8192 <=? c) && (c <=? 8202) ||
   (c =? 8232) || (c =? 8233) || (c =? 8239) || (c =? 8287) ||
   (c =? 12288))%N.

Fixpoint lstrip (s : str) : str :=
  match s with
  | [] => []
  | c :: r => if isspace c then lstrip r else s
  end.

Definition rstrip (s : str) : str := rev (lstrip (rev s)).

(** [s.strip()]: skip the white space at the left end, then at the right
    end of what is left, and return the slice in between. *)
Definition strip (s : str) : str := rstrip (lstrip s).

(** [sep.join(parts)] *)
Fixpoint join (sep : str) (parts : list str) : str :=
  match parts with
  | [] => []
  | [p] => p
  | p :: rest => p ++ sep ++ join sep rest
  end.

(** [s1 == s2] on strings *)
Fixpoint eqb (s1 s2 : str) : bool :=
  match s1, s2 with
  | [], [] => true
  | c1 :: r1, c2 :: r2 => (c1 =? c2)%N && eqb r1 r2
  | _, _ => false
  end.

(** [not s]: a string is falsy exactly when it is empty. *)
Definition is_empty (s : str) : bool :=
  match s with [] => true | _ :: _ => false end.

Definition no_leading_space (s : str) : Prop :=
  forall c r, s = c :: r -> isspace c = false.

Definition no_trailing_space (s : str) : Prop :=
  forall c r, s = r ++ [c] -> isspace c = false.

End PyStr.

(** ** Exceptions, observable actions, and the monad of a run *)

Module Py.

Import PyStr.

(** The exceptions the script can meet, by the classes its two [except]
    clauses tell apart.  [ImportError] is a subclass of [Exception];
    [SystemExit], which [sys.exit] raises, derives from [BaseException]
    only.  [Exception msg] stands for every other subclass of [Exception],
    [msg] being [str(e)]. *)
Inductive exn : Type :=
| ImportError (msg : str)
| Exception (msg : str)
| SystemExit (code : Z).

(** [except ImportError:] *)
Definition as_ImportError (e : exn) : option str :=
  match e with
  | ImportError msg => Some msg
  | _ => None
  end.

(** [except Exception as e:], giving [str(e)] *)
Definition as_Exception (e : exn) : option str :=
  match e with
  | ImportError msg | Exception msg => Some msg
  | SystemExit _ => None
  end.

Inductive stream : Type := Stdout | Stderr.

(** Keyword arguments of the [WhisperModel] constructor. *)
Record ModelArgs : Type := {
  model_size_or_path : str;
  device : str;
  compute_type : str;
  cpu_threads : Z;
  num_workers : Z
}.

Record VadParameters : Type := {
  min_silence_duration_ms : Z;
  threshold : Q
}.

(** Arguments of [model.transcribe].  The float literals of the source are
    kept as the decimal numbers they are written as. *)
Record TranscribeArgs : Type := {
  audio : str;
  language : option str;
  beam_size : Z;
  vad_filter : bool;
  vad_parameters : VadParameters;
  temperature : Q;
  compression_ratio_threshold : Q;
  log_prob_threshold : Q;
  no_speech_threshold : Q
}.

(** What a run does that can be seen from outside, in order. *)
Inductive event : Type :=
| ImportModule (name : str)
| PathExists (path : str)
| CudaIsAvailable
| Print (file : stream) (text : str)
| NewWhisperModel (a : ModelArgs)
| Transcribe (a : TranscribeArgs).

(** A computation logs its events and ends with a value or with a raised
    exception. *)
Definition Run (A : Type) : Type := (list event * (exn + A))%type.

Definition Run_ret {A : Type} (a : A) : Run A := ([], inr a).

Definition Run_bind {A B : Type} (m : Run A) (k : A -> Run B) : Run B :=
  match m with
  | (t, inl e) => (t, inl e)
  | (t, inr a) => let (t', r) := k a in (t ++ t', r)
  end.

#[global] Instance Monad_Run : Monad Run :=
  {| ret := @Run_ret; bind := @Run_bind |}.

(** An action answered by the outside world: logged, then its answer. *)
Definition call {A : Type} (ev : event) (answer : exn + A) : Run A :=
  ([ev], answer).

Definition raise {A : Type} (e : exn) : Run A := ([], inl e).

(** [print(text, file=file)]: [text] and a line terminator. *)
Definition print (file : stream) (text : str) : Run unit :=
  call (Print file text) (inr tt).

(** [sys.exit(code)] *)
Definition sys_exit {A : Type} (code : Z) : Run A := raise (SystemExit code).

(** [try: body except C as x: handler], [catches] being the test of the
    clause. *)
Definition try_except {A X : Type} (body : Run A) (catches : exn -> option X)
    (handler : X -> Run A) : Run A :=
  match body with
  | (t, inr a) => (t, inr a)
  | (t, inl e) =>
      match catches e with
      | Some x => let (t', r) := handler x in (t ++ t', r)
      | None => (t, inl e)
      end
  end.

Definition events {A : Type} (m : Run A) : list event := fst m.
Definition result {A : Type} (m : Run A) : exn + A := snd m.

(** What the operating system sees of a finished process. *)
Record Outcome : Type := {
  trace : list event;
  exit_status : Z
}.

(** The interpreter runs the module body to its end (status 0), or is
    stopped by [SystemExit] (status: its code), or by another exception
    (status 1; the traceback it then prints is left out, [main] never ends
    that way). *)
Definition run_process (m : Run unit) : Outcome :=
  match m with
  | (t, inr _) => {| trace := t; exit_status := 0 |}
  | (t, inl (SystemExit code)) => {| trace := t; exit_status := code |}
  | (t, inl _) => {| trace := t; exit_status := 1 |}
  end.

(** The text written to one stream. *)
Definition written (f : stream) (ev : event) : str :=
  match ev, f with
  | Print Stdout text, Stdout => text ++ newline
  | Print Stderr text, Stderr => text ++ newline
  | _, _ => []
  end.

Definition output (f : stream) (t : list event) : str :=
  flat_map (written f) t.

Definition stdout (o : Outcome) : str := output Stdout (trace o).
Definition stderr (o : Outcome) : str := output Stderr (trace o).

Definition is_Print (f : stream) (ev : event) : bool :=
  match ev, f with
  | Print Stdout _, Stdout | Print Stderr _, Stderr => true
  | _, _ => false
  end.

Definition is_NewWhisperModel (ev : event) : bool :=
  match ev with NewWhisperModel _ => true | _ => false end.

Definition is_Transcribe (ev : event) : bool :=
  match ev with Transcribe _ => true | _ => false end.

End Py.

(** ** The script *)

Module Transcribe.

Import PyStr Py.
Local Open Scope monad_scope.

(** A segment the engine yields; the script reads its [text] only. *)
Module segment.
Record t : Type := { text : str }.
End segment.

(** The second component of what [model.transcribe] returns. *)
Module info.
Record t : Type := {
  language : str;
  language_probability : Q
}.
End info.

(** The first component is a generator: it yields segments while the
    script iterates over it, and either ends or raises. *)
Record Segments : Type := {
  yields : list segment.t;
  then_raises : option exn
}.

(** A constructed [WhisperModel]. *)
Record Model : Type := {
  transcribe : TranscribeArgs -> exn + (Segments * info.t)
}.

(** Everything the script calls and does not define.  An import is
    [None] when it succeeds and [Some e] when it raises [e].  [format_2f] is
    the formatting of a float under [:.2f], left uninterpreted. *)
Record World : Type := {
  import_faster_whisper : option exn;
  os_path_exists : str -> bool;
  import_torch : option exn;
  torch_cuda_is_available : bool;
  WhisperModel : ModelArgs -> exn + Model;
  format_2f : Q -> str
}.

(** The parsed command line, [args] in [main]. *)
Module args.
Record t : Type := {
  audio_path : str;
  model : str;
  language : option str;
  device : str;
  compute_type : str
}.
End args.

Definition import_module (name : str) (answer : option exn) : Run unit :=
  call (ImportModule name)
       (match answer with Some e => inl e | None => inr tt end).

(** The [for segment in segments] loop, appending to
    [transcription_parts]. *)
Fixpoint collect (segs : list segment.t) (stop : option exn)
    (transcription_parts : list str) : Run (list str) :=
  match segs with
  | [] =>
      match stop with
      | Some e => raise e
      | None => ret transcription_parts
      end
  | seg :: rest =>
      collect rest stop (transcription_parts ++ [strip (segment.text seg)])
  end.

Definition transcribe_audio (w : World) (audio_path model_size : str)
    (language : option str) (device compute_type : str) : Run str :=
  try_except
    (import_module (lit "faster_whisper") (import_faster_whisper w))
    as_ImportError
    (fun _ =>
       print Stderr
         (lit "ERROR: faster-whisper not installed. Run: pip install faster-whisper") ;;
       sys_exit 1) ;;
  found <- call (PathExists audio_path) (inr (os_path_exists w audio_path)) ;;
  (if negb found
   then print Stderr (lit "ERROR: Audio file not found: " ++ audio_path) ;;
        sys_exit 1
   else ret tt) ;;
  import_module (lit "torch") (import_torch w) ;;
  fallback <-
    (if eqb device (lit "cuda")
     then available <- call CudaIsAvailable (inr (torch_cuda_is_available w)) ;;
          ret (negb available)
     else ret false) ;;
  chosen <-
    (if fallback : bool
     then print Stderr (lit "WARNING: CUDA not available, falling back to CPU") ;;
          ret (lit "cpu", lit "int8")
     else ret (device, compute_type)) ;;
  let device := fst chosen in
  let compute_type := snd chosen in
  print Stderr
    (lit "INFO: Loading model '" ++ model_size ++ lit "' on " ++ device ++
     lit " with " ++ compute_type) ;;
  let model_args :=
    {| model_size_or_path := model_size;
       Py.device := device;
       Py.compute_type := compute_type;
       cpu_threads := 4;
       num_workers := 1 |} in
  model <- call (NewWhisperModel model_args) (WhisperModel w model_args) ;;
  let transcribe_args :=
    {| audio := audio_path;
       Py.language := language;
       beam_size := 5;
       vad_filter := true;
       vad_parameters :=
         {| min_silence_duration_ms := 500; threshold := 0.5 |};
       temperature := 0.0;
       compression_ratio_threshold := 2.4;
       log_prob_threshold := -1.0;
       no_speech_threshold := 0.6 |} in
  result <- call (Transcribe transcribe_args)
                 (transcribe model transcribe_args) ;;
  let segments := fst result in
  let info := snd result in
  print Stderr
    (lit "INFO: Detected language: " ++ info.language info ++
     lit " (probability: " ++
     format_2f w (info.language_probability info) ++ lit ")") ;;
  transcription_parts <- collect (yields segments) (then_raises segments) [] ;;
  let full_transcription := strip (join (lit " ") transcription_parts) in
  if is_empty full_transcription
  then print Stderr (lit "WARNING: No speech detected in audio") ;;
       ret []
  else ret full_transcription.

(** [main], from the parsed arguments on. *)
Definition main_body (w : World) (a : args.t) : Run unit :=
  try_except
    (transcription <-
       transcribe_audio w (args.audio_path a) (args.model a)
         (args.language a) (args.device a) (args.compute_type a) ;;
     print Stdout transcription)
    as_Exception
    (fun message =>
       print Stderr (lit "ERROR: " ++ message) ;;
       sys_exit 1).

Definition main (w : World) (a : args.t) : Outcome :=
  run_process (main_body w a).

End Transcribe.

(** ** The specification's wording and the parts of the script the proofs name *)

Module Parts.

Import PyStr Py Transcribe.
Local Open Scope monad_scope.

(** The Final Transcript as the specification words it: trim every segment
    text, join with one space, trim again. *)
Definition final_transcript (texts : list str) : str :=
  strip (join (lit " ") (map strip texts)).

(** The messages of the script. *)
Definition msg_not_installed : str :=
  lit "ERROR: faster-whisper not installed. Run: pip install faster-whisper".
Definition msg_not_found (audio_path : str) : str :=
  lit "ERROR: Audio file not found: " ++ audio_path.
Definition msg_fallback : str :=
  lit "WARNING: CUDA not available, falling back to CPU".
Definition msg_loading (model_size device compute_type : str) : str :=
  lit "INFO: Loading model '" ++ model_size ++ lit "' on " ++ device ++
  lit " with " ++ compute_type.
Definition msg_detected (w : World) (i : info.t) : str :=
  lit "INFO: Detected language: " ++ info.language i ++
  lit " (probability: " ++ format_2f w (info.language_probability i) ++
  lit ")".
Definition msg_no_speech : str := lit "WARNING: No speech detected in audio".
Definition msg_error (message : str) : str := lit "ERROR: " ++ message.

(** The two calls into the engine, as the script writes them. *)
Definition model_args (model_size device compute_type : str) : ModelArgs :=
  {| model_size_or_path := model_size;
     Py.device := device;
     Py.compute_type := compute_type;
     cpu_threads := 4;
     num_workers := 1 |}.

Definition transcribe_args (audio_path : str) (language : option str)
  : TranscribeArgs :=
  {| audio := audio_path;
     Py.language := language;
     beam_size := 5;
     vad_filter := true;
     vad_parameters := {| min_silence_duration_ms := 500; threshold := 0.5 |};
     temperature := 0.0;
     compression_ratio_threshold := 2.4;
     log_prob_threshold := -1.0;
     no_speech_threshold := 0.6 |}.

(** The test of line 39 and the device and precision in force after it. *)
Definition falls_back (w : World) (device : str) : bool :=
  eqb device (lit "cuda") && negb (torch_cuda_is_available w).

Definition device_in_force (w : World) (device : str) : str :=
  if falls_back w device then lit "cpu" else device.

Definition compute_type_in_force (w : World) (device compute_type : str)
  : str :=
  if falls_back w device then lit "int8" else compute_type.

(** The events of lines 39 to 42. *)
Definition device_check_events (w : World) (device : str) : list event :=
  (if eqb device (lit "cuda") then [CudaIsAvailable] else []) ++
  (if falls_back w device then [Print Stderr msg_fallback] else []).

Definition is_fallback_warning (ev : event) : bool :=
  match ev with
  | Print Stderr text => eqb text msg_fallback
  | _ => false
  end.

(** [transcribe_audio] from line 76 on: the segments are drained, joined and
    returned. *)
Definition from_segments (segments : Segments) : Run str :=
  transcription_parts <- collect (yields segments) (then_raises segments) [] ;;
  let full_transcription := strip (join (lit " ") transcription_parts) in
  if is_empty full_transcription
  then print Stderr (lit "WARNING: No speech detected in audio") ;;
       ret []
  else ret full_transcription.

(** [transcribe_audio] from line 45 on, with the device and precision in
    force. *)
Definition from_model_load (w : World) (audio_path model_size : str)
    (language : option str) (device compute_type : str) : Run str :=
  print Stderr (msg_loading model_size device compute_type) ;;
  model <- call (NewWhisperModel (model_args model_size device compute_type))
                (WhisperModel w (model_args model_size device compute_type)) ;;
  result <- call (Transcribe (transcribe_args audio_path language))
                 (transcribe model (transcribe_args audio_path language)) ;;
  print Stderr (msg_detected w (snd result)) ;;
  from_segments (fst result).


(** Two engines answer alike. *)
Definition same_model (r1 r2 : exn + Model) : Prop :=
  match r1, r2 with
  | inl e1, inl e2 => e1 = e2
  | inr m1, inr m2 => forall ta, transcribe m1 ta = transcribe m2 ta
  | _, _ => False
  end.

(** Two machines on which the imports, the file system, the accelerator
    probe and the engine answer alike. *)
Record same_collaborators (w1 w2 : World) : Prop := {
  same_faster_whisper : import_faster_whisper w1 = import_faster_whisper w2;
  same_files : forall p, os_path_exists w1 p = os_path_exists w2 p;
  same_torch : import_torch w1 = import_torch w2;
  same_probe : torch_cuda_is_available w1 = torch_cuda_is_available w2;
  same_engine : forall ma, same_model (WhisperModel w1 ma) (WhisperModel w2 ma)
}.

End Parts.

(** ** Sample machines *)

Module Samples.

Import PyStr Py Transcribe.

Definition seg (s : string) : segment.t := {| segment.text := lit s |}.

Definition english : info.t :=
  {| info.language := lit "en"; info.language_probability := 0.99 |}.

(** An engine that yields the given segments for every file. *)
Definition engine_yielding (segs : list segment.t) (stop : option exn)
  : Model :=
  {| transcribe := fun _ =>
       inr ({| yields := segs; then_raises := stop |}, english) |}.

(** A machine without accelerator, where every file exists and the engine
    answers [model]. *)
Definition cpu_machine (model : exn + Model) : World :=
  {| import_faster_whisper := None;
     os_path_exists := fun _ => true;
     import_torch := None;
     torch_cuda_is_available := false;
     WhisperModel := fun _ => model;
     format_2f := fun _ => lit "0.99" |}.

Definition speech_machine : World :=
  cpu_machine (inr (engine_yielding [seg " Hello"; seg "world  "] None)).

(** The same machine with another rendering of floats in its log. *)
Definition speech_machine_rounding : World :=
  {| import_faster_whisper := None;
     os_path_exists := fun _ => true;
     import_torch := None;
     torch_cuda_is_available := false;
     WhisperModel := fun _ =>
       inr (engine_yielding [seg " Hello"; seg "world  "] None);
     format_2f := fun _ => lit "1.00" |}.

Definition silent_machine : World :=
  cpu_machine (inr (engine_yielding [] None)).


Definition no_library_machine : World :=
  {| import_faster_whisper :=
       Some (ImportError (lit "No module named 'faster_whisper'"));
     os_path_exists := fun _ => false;
     import_torch := None;
     torch_cuda_is_available := false;
     WhisperModel := fun _ => inr (engine_yielding [] None);
     format_2f := fun _ => lit "0.99" |}.

Definition no_file_machine : World :=
  {| import_faster_whisper := None;
     os_path_exists := fun _ => false;
     import_torch := None;
     torch_cuda_is_available := false;
     WhisperModel := fun _ => inr (engine_yielding [] None);
     format_2f := fun _ => lit "0.99" |}.

(** [transcribe.py talk.wav] and
    [transcribe.py talk.wav --device cpu --compute-type float32] *)
Definition default_args : args.t :=
  {| args.audio_path := lit "talk.wav";
     args.model := lit "small";
     args.language := None;
     args.device := lit "cuda";
     args.compute_type := lit "int8" |}.

Definition cpu_float32_args : args.t :=
  {| args.audio_path := lit "talk.wav";
     args.model := lit "small";
     args.language := None;
     args.device := lit "cpu";
     args.compute_type := lit "float32" |}.

End Samples.

(** ** Further vocabulary: blank texts, ERROR lines, the parser's choices *)

Module More.

Import PyStr Py Transcribe Parts.

(** A text made of white space only (the empty text included). *)
Definition blank (s : str) : bool := forallb isspace s.



Definition is_CudaIsAvailable (ev : event) : bool :=
  match ev with CudaIsAvailable => true | _ => false end.

(** The [choices] lists that [main] gives to the argument parser for
    [--device] and [--compute-type] (lines 97 to 100). *)
Definition device_choices : list str := [lit "cuda"; lit "cpu"].
Definition compute_type_choices : list str :=
  [lit "int8"; lit "float16"; lit "float32"].

(** Machines for the examples. *)
Definition machine (lib torch : option exn) (cuda : bool)
    (model : exn + Model) : World :=
  {| import_faster_whisper := lib;
     os_path_exists := fun _ => true;
     import_torch := torch;
     torch_cuda_is_available := cuda;
     WhisperModel := fun _ => model;
     format_2f := fun _ => lit "0.99" |}.

Definition no_torch_machine : World :=
  machine None (Some (ImportError (lit "No module named 'torch'"))) false
    (inr (Samples.engine_yielding [] None)).

Definition broken_library_machine : World :=
  machine (Some (Exception (lit "libctranslate2.so: cannot open")))
    None false (inr (Samples.engine_yielding [] None)).

Definition cuda_machine : World :=
  machine None None true
    (inr (Samples.engine_yielding
            [Samples.seg " Hello"; Samples.seg "world  "] None)).

Definition pause_machine : World :=
  machine None None false
    (inr (Samples.engine_yielding
            [Samples.seg "one "; Samples.seg "   "; Samples.seg " two"]
            None)).


Definition cuda_float16_args : args.t :=
  {| args.audio_path := lit "talk.wav";
     args.model := lit "small";
     args.language := Some (lit "en");
     args.device := lit "cuda";
     args.compute_type := lit "float16" |}.

End More.

(** ** Facts about strings *)

Module PyStrFacts.

Import PyStr.

Lemma eqb_eq (s1 s2 : str) : eqb s1 s2 = true <-> s1 = s2.
Proof.
  revert s2; induction s1 as [|c1 r1 IH]; intros [|c2 r2]; simpl;
    try (split; [discriminate | congruence]); try tauto.
  rewrite andb_true_iff, N.eqb_eq, IH. split.
  - intros [-> ->]; reflexivity.
  - intros E; injection E; auto.
Qed.

Lemma eqb_refl (s : str) : eqb s s = true.
Proof. apply eqb_eq; reflexivity. Qed.

Lemma lstrip_no_leading_space (s : str) : no_leading_space (lstrip s).
Proof.
  induction s as [|a s IH]; intros c r E; simpl in E.
  - discriminate.
  - destruct (isspace a) eqn:Ha.
    + exact (IH c r E).
    + injection E as -> _. exact Ha.
Qed.

Lemma lstrip_suffix (s : str) : exists p, s = p ++ lstrip s.
Proof.
  induction s as [|a s [p IH]]; simpl.
  - exists []; reflexivity.
  - destruct (isspace a).
    + exists (a :: p). simpl. f_equal. exact IH.
    + exists []; reflexivity.
Qed.

Lemma rstrip_prefix (s : str) : exists q, s = rstrip s ++ q.
Proof.
  unfold rstrip. destruct (lstrip_suffix (rev s)) as [p E].
  exists (rev p). rewrite <- rev_app_distr, <- E, rev_involutive. reflexivity.
Qed.

Lemma rstrip_no_trailing_space (s : str) : no_trailing_space (rstrip s).
Proof.
  intros c r E. unfold rstrip in E.
  apply (lstrip_no_leading_space (rev s) c (rev r)).
  rewrite <- (rev_involutive (lstrip (rev s))), E, rev_app_distr.
  reflexivity.
Qed.

Lemma rstrip_keeps_no_leading_space (s : str) :
  no_leading_space s -> no_leading_space (rstrip s).
Proof.
  intros H c r E. destruct (rstrip_prefix s) as [q Hq].
  apply (H c (r ++ q)). rewrite Hq at 1. rewrite E. reflexivity.
Qed.

Lemma strip_no_leading_space (s : str) : no_leading_space (strip s).
Proof.
  apply rstrip_keeps_no_leading_space, lstrip_no_leading_space.
Qed.

Lemma strip_no_trailing_space (s : str) : no_trailing_space (strip s).
Proof. apply rstrip_no_trailing_space. Qed.

Lemma cpu_is_not_cuda : eqb (lit "cpu") (lit "cuda") = false.
Proof. reflexivity. Qed.

End PyStrFacts.

(** ** Facts about runs *)

Module RunFacts.

Import PyStr Py.

Lemma output_app (f : stream) (t1 t2 : list event) :
  output f (t1 ++ t2) = output f t1 ++ output f t2.
Proof. apply flat_map_app. Qed.

Lemma output_none (f : stream) (t : list event) :
  Forall (fun ev => is_Print f ev = false) t -> output f t = [].
Proof.
  induction 1 as [|ev t Hev _ IH].
  - reflexivity.
  - change (written f ev ++ output f t = []). rewrite IH, app_nil_r.
    destruct ev as [| | |[] text| |], f; simpl in *;
      reflexivity || discriminate.
Qed.

End RunFacts.

(** ** Facts about the script *)

Module TranscribeFacts.

Import PyStr Py Transcribe Parts PyStrFacts RunFacts.

#[local] Arguments lit : simpl never.
#[local] Arguments from_segments : simpl never.
#[local] Arguments from_model_load : simpl never.

Lemma collect_spec (segs : list segment.t) (stop : option exn)
    (acc : list str) :
  collect segs stop acc =
  match stop with
  | Some e => ([], inl e)
  | None => ([], inr (acc ++ map strip (map segment.text segs)))
  end.
Proof.
  revert acc; induction segs as [|s segs IH]; intros acc; simpl.
  - destruct stop; [reflexivity|]. rewrite app_nil_r. reflexivity.
  - rewrite IH. destruct stop; [reflexivity|].
    rewrite <- app_assoc. reflexivity.
Qed.

Lemma from_segments_cases (segments : Segments) :
  from_segments segments =
  match then_raises segments with
  | Some e => ([], inl e)
  | None =>
      let full := final_transcript (map segment.text (yields segments)) in
      if is_empty full
      then ([Print Stderr msg_no_speech], inr [])
      else ([], inr full)
  end.
Proof.
  unfold from_segments. rewrite collect_spec.
  destruct (then_raises segments); [reflexivity|].
  cbn. unfold final_transcript.
  destruct (is_empty _); reflexivity.
Qed.

Lemma from_model_load_cases (w : World) (p m : str) (l : option str)
    (d c : str) :
  from_model_load w p m l d c =
  let loading :=
    [Print Stderr (msg_loading m d c); NewWhisperModel (model_args m d c)] in
  match WhisperModel w (model_args m d c) with
  | inl e => (loading, inl e)
  | inr model =>
      match transcribe model (transcribe_args p l) with
      | inl e => (loading ++ [Transcribe (transcribe_args p l)], inl e)
      | inr (segments, i) =>
          (loading ++
           [Transcribe (transcribe_args p l); Print Stderr (msg_detected w i)] ++
           events (from_segments segments),
           result (from_segments segments))
      end
  end.
Proof.
  unfold from_model_load. cbn.
  change (collect _ _ _ ;; _)%monad with (from_segments (fst result)).
  destruct (WhisperModel w _) as [e|model]; [reflexivity|].
  destruct (transcribe model _) as [e|[segments i]]; [reflexivity|].
  cbn. destruct (from_segments segments); reflexivity.
Qed.


Lemma transcribe_audio_from_model_load (w : World) (p m : str)
    (l : option str) (d c : str) :
  transcribe_audio w p m l d c =
  (try_except
     (import_module (lit "faster_whisper") (import_faster_whisper w))
     as_ImportError
     (fun _ => print Stderr msg_not_installed ;; sys_exit 1) ;;
   found <- call (PathExists p) (inr (os_path_exists w p)) ;;
   (if negb found
    then print Stderr (msg_not_found p) ;; sys_exit 1
    else ret tt) ;;
   import_module (lit "torch") (import_torch w) ;;
   fallback <-
     (if eqb d (lit "cuda")
      then available <- call CudaIsAvailable
                             (inr (torch_cuda_is_available w)) ;;
           ret (negb available)
      else ret false) ;;
   chosen <-
     (if fallback : bool
      then print Stderr msg_fallback ;; ret (lit "cpu", lit "int8")
      else ret (d, c)) ;;
   from_model_load w p m l (fst chosen) (snd chosen))%monad.
Proof. reflexivity. Qed.

Lemma transcribe_audio_no_library (w : World) (p m : str) (l : option str)
    (d c msg : str) :
  import_faster_whisper w = Some (ImportError msg) ->
  transcribe_audio w p m l d c =
  ([ImportModule (lit "faster_whisper"); Print Stderr msg_not_installed],
   inl (SystemExit 1)).
Proof.
  intros H. rewrite transcribe_audio_from_model_load, H. reflexivity.
Qed.

Lemma transcribe_audio_import_raises (w : World) (p m : str)
    (l : option str) (d c : str) (e : exn) :
  import_faster_whisper w = Some e ->
  as_ImportError e = None ->
  transcribe_audio w p m l d c =
  ([ImportModule (lit "faster_whisper")], inl e).
Proof.
  intros H He. rewrite transcribe_audio_from_model_load, H.
  destruct e; try discriminate; reflexivity.
Qed.

Lemma transcribe_audio_no_file (w : World) (p m : str) (l : option str)
    (d c : str) :
  import_faster_whisper w = None ->
  os_path_exists w p = false ->
  transcribe_audio w p m l d c =
  ([ImportModule (lit "faster_whisper"); PathExists p;
    Print Stderr (msg_not_found p)],
   inl (SystemExit 1)).
Proof.
  intros H1 H2. rewrite transcribe_audio_from_model_load, H1. cbn.
  rewrite H2. reflexivity.
Qed.

Lemma transcribe_audio_torch_raises (w : World) (p m : str)
    (l : option str) (d c : str) (e : exn) :
  import_faster_whisper w = None ->
  os_path_exists w p = true ->
  import_torch w = Some e ->
  transcribe_audio w p m l d c =
  ([ImportModule (lit "faster_whisper"); PathExists p;
    ImportModule (lit "torch")],
   inl e).
Proof.
  intros H1 H2 H3. rewrite transcribe_audio_from_model_load, H1. cbn.
  rewrite H2, H3. reflexivity.
Qed.

Lemma transcribe_audio_checked (w : World) (p m : str) (l : option str)
    (d c : str) :
  import_faster_whisper w = None ->
  os_path_exists w p = true ->
  import_torch w = None ->
  transcribe_audio w p m l d c =
  ([ImportModule (lit "faster_whisper"); PathExists p;
    ImportModule (lit "torch")] ++
   device_check_events w d ++
   events (from_model_load w p m l (device_in_force w d)
             (compute_type_in_force w d c)),
   result (from_model_load w p m l (device_in_force w d)
             (compute_type_in_force w d c))).
Proof.
  intros H1 H2 H3. rewrite transcribe_audio_from_model_load, H1. cbn.
  rewrite H2, H3. cbn.
  unfold device_check_events, device_in_force, compute_type_in_force,
    falls_back.
  destruct (eqb d (lit "cuda")); cbn;
    [destruct (torch_cuda_is_available w); cbn|];
    destruct (from_model_load _ _ _ _ _ _); reflexivity.
Qed.


Lemma main_cases (w : World) (a : args.t) :
  main w a =
  let m := transcribe_audio w (args.audio_path a) (args.model a)
             (args.language a) (args.device a) (args.compute_type a) in
  match result m with
  | inr transcription =>
      {| trace := events m ++ [Print Stdout transcription];
         exit_status := 0 |}
  | inl (SystemExit code) => {| trace := events m; exit_status := code |}
  | inl (ImportError message) | inl (Exception message) =>
      {| trace := events m ++ [Print Stderr (msg_error message)];
         exit_status := 1 |}
  end.
Proof.
  unfold main, main_body. cbn [bind ret Monad_Run].
  destruct (transcribe_audio _ _ _ _ _ _) as [t [[msg|msg|code]|s]];
    reflexivity.
Qed.

(** Only [SystemExit] leaves [main]. *)
Lemma main_body_raises_SystemExit_only (w : World) (a : args.t) (e : exn) :
  result (main_body w a) = inl e -> as_Exception e = None.
Proof.
  unfold main_body. cbn [bind ret Monad_Run].
  destruct (transcribe_audio _ _ _ _ _ _) as [t [[msg|msg|code]|s]];
    cbn; intros E; try discriminate E; injection E as <-; reflexivity.
Qed.

Ltac audio_cases w p m l d c :=
  let Hlib := fresh "Hlib" in
  let Hfile := fresh "Hfile" in
  let Htorch := fresh "Htorch" in
  destruct (import_faster_whisper w) as [[?msg|?msg|?code]|] eqn:Hlib;
  [ rewrite (transcribe_audio_no_library w p m l d c _ Hlib)
  | rewrite (transcribe_audio_import_raises w p m l d c _ Hlib eq_refl)
  | rewrite (transcribe_audio_import_raises w p m l d c _ Hlib eq_refl)
  | destruct (os_path_exists w p) eqn:Hfile;
    [ destruct (import_torch w) as [?e|] eqn:Htorch;
      [ rewrite (transcribe_audio_torch_raises w p m l d c _ Hlib Hfile Htorch)
      | rewrite (transcribe_audio_checked w p m l d c Hlib Hfile Htorch) ]
    | rewrite (transcribe_audio_no_file w p m l d c Hlib Hfile) ] ].

Ltac engine_cases :=
  rewrite from_model_load_cases; cbv zeta;
  destruct (WhisperModel _ _) as [?e|?model] eqn:?;
  [ | destruct (transcribe _ _) as [?e|[?segments ?i]] eqn:?;
      [ | rewrite from_segments_cases;
          destruct (then_raises _) as [?e|] eqn:?;
          [ | cbv zeta; destruct (is_empty _) eqn:? ] ] ].

Lemma transcribe_audio_prints_on_stderr (w : World) (p m : str)
    (l : option str) (d c : str) :
  Forall (fun ev => is_Print Stdout ev = false)
         (events (transcribe_audio w p m l d c)).
Proof.
  audio_cases w p m l d c; cbn [events fst];
    try (repeat constructor; fail).
  unfold device_check_events.
  engine_cases; cbn [events result fst snd app];
    destruct (eqb d (lit "cuda")), (falls_back w d); cbn [app];
    repeat constructor.
Qed.


Lemma is_empty_nil (s : str) : is_empty s = true -> s = [].
Proof. destruct s; [reflexivity | discriminate]. Qed.

(** Whenever [transcribe_audio] returns, the engine was built and called,
    its segments ended without error, and the value is their transcript. *)
Lemma transcribe_audio_returns (w : World) (p m : str) (l : option str)
    (d c t : str) :
  result (transcribe_audio w p m l d c) = inr t ->
  exists model segments i,
    WhisperModel w
      (model_args m (device_in_force w d) (compute_type_in_force w d c))
      = inr model /\
    transcribe model (transcribe_args p l) = inr (segments, i) /\
    then_raises segments = None /\
    t = final_transcript (map segment.text (yields segments)).
Proof.
  audio_cases w p m l d c; cbn [result snd]; try discriminate.
  engine_cases; cbn [result snd]; try discriminate;
    intros E; injection E as <-;
    exists model, segments, i; repeat split; try assumption.
  symmetry. apply is_empty_nil. assumption.
Qed.

Lemma stdout_main (w : World) (a : args.t) :
  stdout (main w a) =
  match result (transcribe_audio w (args.audio_path a) (args.model a)
                  (args.language a) (args.device a) (args.compute_type a))
  with
  | inr transcription => transcription ++ newline
  | inl _ => []
  end.
Proof.
  rewrite main_cases. cbv zeta.
  pose proof (transcribe_audio_prints_on_stderr w (args.audio_path a)
                (args.model a) (args.language a) (args.device a)
                (args.compute_type a)) as Hq.
  apply output_none in Hq.
  destruct (result _) as [[msg|msg|code]|t]; unfold stdout; cbn [trace];
    rewrite ?output_app, Hq; cbn; rewrite ?app_nil_r; reflexivity.
Qed.

Lemma exit_status_main (w : World) (a : args.t) :
  exit_status (main w a) =
  match result (transcribe_audio w (args.audio_path a) (args.model a)
                  (args.language a) (args.device a) (args.compute_type a))
  with
  | inr _ => 0%Z
  | inl (SystemExit code) => code
  | inl _ => 1%Z
  end.
Proof.
  rewrite main_cases. cbv zeta.
  destruct (result _) as [[msg|msg|code]|t]; reflexivity.
Qed.

(** The engine is built and called at most once, and only with the
    arguments the script fixes. *)
Lemma engine_events (w : World) (p m : str) (l : option str) (d c : str) :
  let t := events (transcribe_audio w p m l d c) in
  let ma := model_args m (device_in_force w d) (compute_type_in_force w d c) in
  (filter is_NewWhisperModel t = [] \/
   filter is_NewWhisperModel t = [NewWhisperModel ma]) /\
  (filter is_Transcribe t = [] \/
   filter is_Transcribe t = [Transcribe (transcribe_args p l)]).
Proof.
  cbv zeta.
  audio_cases w p m l d c; cbn [events fst];
    try (split; left; reflexivity).
  unfold device_check_events.
  engine_cases; cbn [events result fst snd app];
    destruct (eqb d (lit "cuda")), (falls_back w d); cbn;
    auto.
Qed.


(** The run in which every check passes and the engine answers. *)
Lemma transcribe_audio_answered (w : World) (p m : str) (l : option str)
    (d c : str) (model : Model) (segments : Segments) (i : info.t) :
  import_faster_whisper w = None ->
  os_path_exists w p = true ->
  import_torch w = None ->
  WhisperModel w
    (model_args m (device_in_force w d) (compute_type_in_force w d c))
    = inr model ->
  transcribe model (transcribe_args p l) = inr (segments, i) ->
  transcribe_audio w p m l d c =
  ([ImportModule (lit "faster_whisper"); PathExists p;
    ImportModule (lit "torch")] ++
   device_check_events w d ++
   [Print Stderr
      (msg_loading m (device_in_force w d) (compute_type_in_force w d c));
    NewWhisperModel
      (model_args m (device_in_force w d) (compute_type_in_force w d c));
    Transcribe (transcribe_args p l);
    Print Stderr (msg_detected w i)] ++
   events (from_segments segments),
   result (from_segments segments)).
Proof.
  intros Hlib Hfile Htorch Hmodel Hcall.
  rewrite transcribe_audio_checked by assumption.
  rewrite from_model_load_cases. cbv zeta. rewrite Hmodel, Hcall.
  reflexivity.
Qed.

Lemma from_segments_no_speech (segments : Segments) :
  then_raises segments = None ->
  final_transcript (map segment.text (yields segments)) = [] ->
  from_segments segments = ([Print Stderr msg_no_speech], inr []).
Proof.
  intros Hend Hempty. rewrite from_segments_cases, Hend. cbv zeta.
  rewrite Hempty. reflexivity.
Qed.

Lemma from_segments_result (segments : Segments) :
  then_raises segments = None ->
  result (from_segments segments) =
  inr (final_transcript (map segment.text (yields segments))).
Proof.
  intros Hend. rewrite from_segments_cases, Hend. cbv zeta.
  destruct (is_empty _) eqn:E; [|reflexivity].
  apply is_empty_nil in E. rewrite E. reflexivity.
Qed.

End TranscribeFacts.

(** ** The claims *)

Import PyStr Py Transcribe Parts PyStrFacts RunFacts TranscribeFacts.

(** C1.  When the device argument is "cuda" and the probe reports no CUDA,
    the run goes on: the warning is printed on standard error, the one
    engine that is built gets device "cpu" and compute type "int8" whatever
    compute type was asked for, and the exit status and standard output are
    those of the same invocation with [--device cpu --compute-type int8]. *)
Theorem cuda_unavailable_falls_back_to_cpu_int8 (w : World) (a : args.t) :
  import_faster_whisper w = None ->
  os_path_exists w (args.audio_path a) = true ->
  import_torch w = None ->
  args.device a = lit "cuda" ->
  torch_cuda_is_available w = false ->
  let on_cpu :=
    {| args.audio_path := args.audio_path a;
       args.model := args.model a;
       args.language := args.language a;
       args.device := lit "cpu";
       args.compute_type := lit "int8" |} in
  (exists rest,
     trace (main w a) =
     [ImportModule (lit "faster_whisper"); PathExists (args.audio_path a);
      ImportModule (lit "torch"); CudaIsAvailable;
      Print Stderr (lit "WARNING: CUDA not available, falling back to CPU");
      Print Stderr (msg_loading (args.model a) (lit "cpu") (lit "int8"));
      NewWhisperModel (model_args (args.model a) (lit "cpu") (lit "int8"))]
     ++ rest /\
     filter is_NewWhisperModel rest = []) /\
  exit_status (main w a) = exit_status (main w on_cpu) /\
  stdout (main w a) = stdout (main w on_cpu).
Proof.
  intros Hlib Hfile Htorch Hdev Hcuda on_cpu.
  assert (Hfb : falls_back w (lit "cuda") = true)
    by (unfold falls_back; rewrite Hcuda; reflexivity).
  assert (Hno : falls_back w (lit "cpu") = false) by reflexivity.
  assert (Hsame :
    result (transcribe_audio w (args.audio_path a) (args.model a)
              (args.language a) (args.device a) (args.compute_type a)) =
    result (transcribe_audio w (args.audio_path on_cpu) (args.model on_cpu)
              (args.language on_cpu) (args.device on_cpu)
              (args.compute_type on_cpu))).
  { rewrite !transcribe_audio_checked by assumption.
    rewrite Hdev. cbn [args.audio_path args.model args.language args.device
                       args.compute_type on_cpu result snd].
    unfold device_in_force, compute_type_in_force. rewrite Hfb, Hno.
    reflexivity. }
  split; [|split].
  - rewrite main_cases. cbv zeta.
    rewrite transcribe_audio_checked by assumption. rewrite Hdev.
    unfold device_check_events, device_in_force, compute_type_in_force.
    rewrite Hfb. cbn [events result fst snd app].
    rewrite eqb_refl.
    engine_cases; cbn [events result fst snd app];
      try (destruct e as [msg|msg|code]);
      cbn [trace app]; eexists; (split; [reflexivity|reflexivity]).
  - rewrite !exit_status_main, Hsame. reflexivity.
  - rewrite !stdout_main, Hsame. reflexivity.
Qed.

Lemma cuda_unavailable_falls_back_to_cpu_int8_witness :
  torch_cuda_is_available Samples.speech_machine = false /\
  args.device Samples.default_args = lit "cuda" /\
  exit_status (main Samples.speech_machine Samples.default_args) =
  exit_status (main Samples.speech_machine
                 {| args.audio_path := lit "talk.wav";
                    args.model := lit "small";
                    args.language := None;
                    args.device := lit "cpu";
                    args.compute_type := lit "int8" |}).
Proof.
  split; [reflexivity | split; [reflexivity |]].
  exact (proj1 (proj2
    (cuda_unavailable_falls_back_to_cpu_int8
       Samples.speech_machine Samples.default_args
       eq_refl eq_refl eq_refl eq_refl eq_refl))).
Defined.

(** C2.  When the engine's segments end without error, the string
    [transcribe_audio] returns is the Final Transcript of the specification:
    each segment text trimmed, the trimmed texts joined with one space, and
    the joined string trimmed again. *)
Theorem returned_string_is_final_transcript (w : World) (p m : str)
    (l : option str) (d c : str) (model : Model) (segments : Segments)
    (i : info.t) :
  import_faster_whisper w = None ->
  os_path_exists w p = true ->
  import_torch w = None ->
  WhisperModel w
    (model_args m (device_in_force w d) (compute_type_in_force w d c))
    = inr model ->
  transcribe model (transcribe_args p l) = inr (segments, i) ->
  then_raises segments = None ->
  result (transcribe_audio w p m l d c) =
  inr (strip (join (lit " ") (map strip (map segment.text (yields segments))))).
Proof.
  intros Hlib Hfile Htorch Hmodel Hcall Hend.
  rewrite (transcribe_audio_answered w p m l d c model segments i)
    by assumption.
  cbn [result snd]. apply from_segments_result. exact Hend.
Qed.

Lemma returned_string_is_final_transcript_witness :
  result (transcribe_audio Samples.speech_machine (lit "talk.wav")
            (lit "small") None (lit "cuda") (lit "int8")) =
  inr (lit "Hello world").
Proof.
  exact (returned_string_is_final_transcript Samples.speech_machine
           (lit "talk.wav") (lit "small") None (lit "cuda") (lit "int8")
           (Samples.engine_yielding
              [Samples.seg " Hello"; Samples.seg "world  "] None)
           {| yields := [Samples.seg " Hello"; Samples.seg "world  "];
              then_raises := None |}
           Samples.english
           eq_refl eq_refl eq_refl eq_refl eq_refl eq_refl).
Defined.

(** C3, as the code has it.  When the joined and trimmed transcript is
    empty, the run ends with the "no speech" warning on standard error,
    [transcribe_audio] returns the empty string, the exit status is 0, and
    standard output holds the line [print] writes for the empty string:
    a line terminator and nothing else. *)
Theorem no_speech_prints_an_empty_line (w : World) (a : args.t)
    (model : Model) (segments : Segments) (i : info.t) :
  import_faster_whisper w = None ->
  os_path_exists w (args.audio_path a) = true ->
  import_torch w = None ->
  WhisperModel w
    (model_args (args.model a) (device_in_force w (args.device a))
       (compute_type_in_force w (args.device a) (args.compute_type a)))
    = inr model ->
  transcribe model (transcribe_args (args.audio_path a) (args.language a))
    = inr (segments, i) ->
  then_raises segments = None ->
  final_transcript (map segment.text (yields segments)) = [] ->
  (exists before,
     trace (main w a) =
     before ++ [Print Stderr (lit "WARNING: No speech detected in audio");
                Print Stdout []]) /\
  result (transcribe_audio w (args.audio_path a) (args.model a)
            (args.language a) (args.device a) (args.compute_type a))
    = inr [] /\
  exit_status (main w a) = 0%Z /\
  stdout (main w a) = newline.
Proof.
  intros Hlib Hfile Htorch Hmodel Hcall Hend Hempty.
  pose proof (transcribe_audio_answered w _ (args.model a) _ (args.device a)
                (args.compute_type a) model segments i
                Hlib Hfile Htorch Hmodel Hcall) as Hrun.
  rewrite (from_segments_no_speech segments Hend Hempty) in Hrun.
  cbn [events result fst snd] in Hrun.
  split; [|split; [rewrite Hrun; reflexivity|split]].
  - exists ([ImportModule (lit "faster_whisper");
             PathExists (args.audio_path a); ImportModule (lit "torch")] ++
            device_check_events w (args.device a) ++
            [Print Stderr
               (msg_loading (args.model a)
                  (device_in_force w (args.device a))
                  (compute_type_in_force w (args.device a)
                     (args.compute_type a)));
             NewWhisperModel
               (model_args (args.model a)
                  (device_in_force w (args.device a))
                  (compute_type_in_force w (args.device a)
                     (args.compute_type a)));
             Transcribe
               (transcribe_args (args.audio_path a) (args.language a));
             Print Stderr (msg_detected w i)]).
    rewrite main_cases. cbv zeta. rewrite Hrun.
    cbn [events result fst snd trace].
    rewrite <- !app_assoc. reflexivity.
  - rewrite exit_status_main, Hrun. reflexivity.
  - rewrite stdout_main, Hrun. reflexivity.
Qed.

Lemma no_speech_prints_an_empty_line_witness :
  final_transcript (map segment.text []) = [] /\
  stdout (main Samples.silent_machine Samples.default_args) = newline.
Proof.
  split; [reflexivity|].
  exact (proj2 (proj2 (proj2
    (no_speech_prints_an_empty_line Samples.silent_machine
       Samples.default_args (Samples.engine_yielding [] None)
       {| yields := []; then_raises := None |} Samples.english
       eq_refl eq_refl eq_refl eq_refl eq_refl eq_refl eq_refl)))).
Defined.

(** C3, as stated, fails: on a machine whose engine yields no segment the
    transcript is empty and the exit status 0, yet standard output is not
    the empty string: it holds the line terminator of [print("")]. *)
Lemma silent_run_stdout_is_not_empty :
  result (transcribe_audio Samples.silent_machine (lit "talk.wav")
            (lit "small") None (lit "cuda") (lit "int8")) = inr [] /\
  exit_status (main Samples.silent_machine Samples.default_args) = 0%Z /\
  stdout (main Samples.silent_machine Samples.default_args) = [10%N] /\
  stdout (main Samples.silent_machine Samples.default_args) <> [].
Proof.
  split; [|split; [|split]]; try (vm_compute; reflexivity).
  intros H. vm_compute in H. discriminate H.
Qed.



(** C5.  The library import is checked first and the audio file second.
    Either failure prints one ERROR line on standard error and ends the
    process with status 1; nothing is written to standard output and no
    engine is built.  A missing library is reported whether or not the
    file exists. *)
Theorem preconditions_are_checked_in_order (w : World) (a : args.t) :
  (forall msg, import_faster_whisper w = Some (ImportError msg) ->
     trace (main w a) =
     [ImportModule (lit "faster_whisper");
      Print Stderr
        (lit "ERROR: faster-whisper not installed. Run: pip install faster-whisper")] /\
     exit_status (main w a) = 1%Z /\
     stdout (main w a) = [] /\
     filter is_NewWhisperModel (trace (main w a)) = []) /\
  (import_faster_whisper w = None ->
   os_path_exists w (args.audio_path a) = false ->
     trace (main w a) =
     [ImportModule (lit "faster_whisper"); PathExists (args.audio_path a);
      Print Stderr (lit "ERROR: Audio file not found: " ++ args.audio_path a)] /\
     exit_status (main w a) = 1%Z /\
     stdout (main w a) = [] /\
     filter is_NewWhisperModel (trace (main w a)) = []).
Proof.
  split.
  - intros msg Hlib.
    rewrite stdout_main, exit_status_main, main_cases. cbv zeta.
    rewrite (transcribe_audio_no_library w _ _ _ _ _ msg Hlib).
    repeat split.
  - intros Hlib Hfile.
    rewrite stdout_main, exit_status_main, main_cases. cbv zeta.
    rewrite (transcribe_audio_no_file w _ _ _ _ _ Hlib Hfile).
    repeat split.
Qed.

Lemma preconditions_are_checked_in_order_witness :
  (os_path_exists Samples.no_library_machine (lit "talk.wav") = false /\
   stderr (main Samples.no_library_machine Samples.default_args) =
   lit "ERROR: faster-whisper not installed. Run: pip install faster-whisper"
   ++ newline) /\
  exit_status (main Samples.no_file_machine Samples.default_args) = 1%Z.
Proof.
  split; [split; [reflexivity|]|].
  - exact (f_equal (output Stderr)
      (proj1 (proj1
         (preconditions_are_checked_in_order Samples.no_library_machine
            Samples.default_args)
         _ eq_refl))).
  - exact (proj1 (proj2 (proj2
      (preconditions_are_checked_in_order Samples.no_file_machine
         Samples.default_args)
      eq_refl eq_refl))).
Defined.



(** C7.  A run that gets as far as the engine call makes it exactly once,
    for the audio path and language of the command line and with the fixed
    policy: temperature 0.0, beam size 5, voice-activity filter on with
    minimum silence 500 ms and threshold 0.5, compression-ratio threshold
    2.4, log-probability threshold -1.0 and no-speech threshold 0.6,
    whatever the command line was. *)
Theorem engine_called_once_with_fixed_policy (w : World) (a : args.t)
    (model : Model) :
  import_faster_whisper w = None ->
  os_path_exists w (args.audio_path a) = true ->
  import_torch w = None ->
  WhisperModel w
    (model_args (args.model a) (device_in_force w (args.device a))
       (compute_type_in_force w (args.device a) (args.compute_type a)))
    = inr model ->
  filter is_Transcribe (trace (main w a)) =
  [Transcribe
     {| audio := args.audio_path a;
        language := args.language a;
        beam_size := 5;
        vad_filter := true;
        vad_parameters :=
          {| min_silence_duration_ms := 500; threshold := 0.5 |};
        temperature := 0.0;
        compression_ratio_threshold := 2.4;
        log_prob_threshold := -1.0;
        no_speech_threshold := 0.6 |}].
Proof.
  intros Hlib Hfile Htorch Hmodel.
  rewrite main_cases. cbv zeta.
  rewrite transcribe_audio_checked by assumption.
  cbn [events result fst snd].
  rewrite from_model_load_cases. cbv zeta. rewrite Hmodel.
  assert (Hpre : forall rest,
    filter is_Transcribe
      ([ImportModule (lit "faster_whisper"); PathExists (args.audio_path a);
        ImportModule (lit "torch")] ++
       device_check_events w (args.device a) ++ rest) =
    filter is_Transcribe rest).
  { intros rest. unfold device_check_events.
    destruct (eqb (args.device a) (lit "cuda")),
             (falls_back w (args.device a)); reflexivity. }
  destruct (transcribe model _) as [e|[segments i]].
  - cbn [events result fst snd].
    destruct e as [msg|msg|code]; cbn [trace];
      rewrite <- ?app_assoc, Hpre; reflexivity.
  - cbn [events result fst snd]. rewrite from_segments_cases.
    destruct (then_raises segments) as [e|]; cbv zeta;
      [destruct e as [msg|msg|code] | destruct (is_empty _)];
      cbn [events result fst snd trace];
      rewrite <- ?app_assoc, Hpre; reflexivity.
Qed.

Lemma engine_called_once_with_fixed_policy_witness :
  List.length (filter is_Transcribe
            (trace (main Samples.speech_machine Samples.cpu_float32_args)))
  = 1%nat.
Proof.
  exact (f_equal (@List.length event)
    (engine_called_once_with_fixed_policy Samples.speech_machine
       Samples.cpu_float32_args
       (Samples.engine_yielding
          [Samples.seg " Hello"; Samples.seg "world  "] None)
       eq_refl eq_refl eq_refl eq_refl)).
Defined.

Lemma same_collaborators_same_result (w1 w2 : World) (p m : str)
    (l : option str) (d c : str) :
  same_collaborators w1 w2 ->
  result (transcribe_audio w1 p m l d c) =
  result (transcribe_audio w2 p m l d c).
Proof.
  intros [Slib Sfiles Storch Sprobe Sengine].
  assert (Hdev : device_in_force w1 d = device_in_force w2 d)
    by (unfold device_in_force, falls_back; rewrite Sprobe; reflexivity).
  assert (Hct : compute_type_in_force w1 d c = compute_type_in_force w2 d c)
    by (unfold compute_type_in_force, falls_back; rewrite Sprobe;
        reflexivity).
  audio_cases w1 p m l d c;
    symmetry in Slib;
    try rewrite Sfiles in Hfile;
    symmetry in Storch.
  - rewrite (transcribe_audio_no_library w2 p m l d c _ Slib). reflexivity.
  - rewrite (transcribe_audio_import_raises w2 p m l d c _ Slib eq_refl).
    reflexivity.
  - rewrite (transcribe_audio_import_raises w2 p m l d c _ Slib eq_refl).
    reflexivity.
  - rewrite (transcribe_audio_torch_raises w2 p m l d c _ Slib Hfile Storch).
    reflexivity.
  - rewrite (transcribe_audio_checked w2 p m l d c Slib Hfile Storch).
    cbn [result snd]. rewrite !from_model_load_cases. cbv zeta.
    rewrite <- Hdev, <- Hct.
    specialize (Sengine (model_args m (device_in_force w1 d)
                           (compute_type_in_force w1 d c))).
    unfold same_model in Sengine.
    destruct (WhisperModel w1 _) as [e1|m1], (WhisperModel w2 _) as [e2|m2];
      try contradiction.
    + rewrite Sengine. reflexivity.
    + rewrite Sengine.
      destruct (transcribe m2 _) as [e|[segments i]]; reflexivity.
  - rewrite (transcribe_audio_no_file w2 p m l d c Slib Hfile). reflexivity.
Qed.

(** C8.  Two invocations with the same audio path, model size, language,
    device and compute type, on machines whose imports, file system,
    accelerator probe and engine answer alike, write the same bytes to
    standard output (and end with the same exit status). *)
Theorem same_invocation_same_transcript (w1 w2 : World) (a1 a2 : args.t) :
  same_collaborators w1 w2 ->
  args.audio_path a1 = args.audio_path a2 ->
  args.model a1 = args.model a2 ->
  args.language a1 = args.language a2 ->
  args.device a1 = args.device a2 ->
  args.compute_type a1 = args.compute_type a2 ->
  stdout (main w1 a1) = stdout (main w2 a2) /\
  exit_status (main w1 a1) = exit_status (main w2 a2).
Proof.
  intros Hw Hp Hm Hl Hd Hc.
  rewrite !stdout_main, !exit_status_main, Hp, Hm, Hl, Hd, Hc.
  rewrite (same_collaborators_same_result w1 w2 _ _ _ _ _ Hw).
  split; reflexivity.
Qed.

Lemma speech_machines_same_collaborators :
  same_collaborators Samples.speech_machine Samples.speech_machine_rounding.
Proof.
  constructor; try reflexivity. intros ma. simpl. reflexivity.
Defined.

Lemma same_invocation_same_transcript_witness :
  stdout (main Samples.speech_machine Samples.default_args) =
  stdout (main Samples.speech_machine_rounding Samples.default_args).
Proof.
  exact (proj1
    (same_invocation_same_transcript Samples.speech_machine
       Samples.speech_machine_rounding Samples.default_args
       Samples.default_args speech_machines_same_collaborators
       eq_refl eq_refl eq_refl eq_refl eq_refl)).
Defined.

(** C9.  Whatever the engine yields, a string returned by
    [transcribe_audio] neither starts nor ends with a white-space
    character. *)
Theorem returned_string_is_trimmed (w : World) (p m : str) (l : option str)
    (d c t : str) :
  result (transcribe_audio w p m l d c) = inr t ->
  (forall ch rest, t = ch :: rest -> isspace ch = false) /\
  (forall ch rest, t = rest ++ [ch] -> isspace ch = false).
Proof.
  intros Hres.
  destruct (transcribe_audio_returns w p m l d c t Hres)
    as (model & segments & i & _ & _ & _ & ->).
  split.
  - apply strip_no_leading_space.
  - apply strip_no_trailing_space.
Qed.

Lemma returned_string_is_trimmed_witness :
  (forall ch rest, lit "Hello world" = ch :: rest -> isspace ch = false) /\
  (forall ch rest, lit "Hello world" = rest ++ [ch] -> isspace ch = false).
Proof.
  exact (returned_string_is_trimmed Samples.speech_machine
           (lit "talk.wav") (lit "small") None (lit "cuda") (lit "int8")
           (lit "Hello world") eq_refl).
Defined.

Ltac events_without_fallback :=
  cbn [events result fst snd trace app];
  repeat (apply Forall_cons; [vm_compute; reflexivity|]);
  apply Forall_nil.

Lemma cpu_run_never_warns_of_fallback (w : World) (a : args.t) :
  args.device a = lit "cpu" ->
  Forall (fun ev => is_fallback_warning ev = false) (trace (main w a)).
Proof.
  intros Hdev. rewrite main_cases. cbv zeta.
  audio_cases w (args.audio_path a) (args.model a) (args.language a)
    (args.device a) (args.compute_type a);
    try (events_without_fallback; fail).
  - destruct e as [msg|msg|code]; events_without_fallback.
  - unfold device_check_events, falls_back.
    rewrite Hdev, cpu_is_not_cuda.
    engine_cases; try (destruct e as [msg|msg|code]);
      events_without_fallback.
Qed.

(** C10.  With the device argument "cpu", the only engine ever built gets
    device "cpu" and the compute type of the command line, it is built
    whenever the checks pass, and the fallback warning is never printed.
    On any command line, an engine built with another compute type than
    the one asked for means that the device argument was "cuda" and CUDA
    was unavailable. *)
Theorem cpu_keeps_requested_compute_type (w : World) (a : args.t) :
  (args.device a = lit "cpu" ->
     (forall ma, In (NewWhisperModel ma) (trace (main w a)) ->
        ma = {| model_size_or_path := args.model a;
                device := lit "cpu";
                compute_type := args.compute_type a;
                cpu_threads := 4;
                num_workers := 1 |}) /\
     (import_faster_whisper w = None ->
      os_path_exists w (args.audio_path a) = true ->
      import_torch w = None ->
      In (NewWhisperModel
            {| model_size_or_path := args.model a;
               device := lit "cpu";
               compute_type := args.compute_type a;
               cpu_threads := 4;
               num_workers := 1 |})
         (trace (main w a))) /\
     ~ In (Print Stderr (lit "WARNING: CUDA not available, falling back to CPU"))
          (trace (main w a))) /\
  (forall ma, In (NewWhisperModel ma) (trace (main w a)) ->
     compute_type ma <> args.compute_type a ->
     args.device a = lit "cuda" /\ torch_cuda_is_available w = false).
Proof.
  assert (Hbuilt : forall ma, In (NewWhisperModel ma) (trace (main w a)) ->
    ma = model_args (args.model a) (device_in_force w (args.device a))
           (compute_type_in_force w (args.device a) (args.compute_type a))).
  { intros ma Hin.
    assert (Hf : In (NewWhisperModel ma)
                   (filter is_NewWhisperModel
                      (events (transcribe_audio w (args.audio_path a)
                                 (args.model a) (args.language a)
                                 (args.device a) (args.compute_type a))))).
    { apply filter_In. split; [|reflexivity].
      rewrite main_cases in Hin. cbv zeta in Hin.
      destruct (result _) as [[msg|msg|code]|t]; cbn [trace] in Hin;
        try apply in_app_or in Hin; try destruct Hin as [Hin|[Hin|[]]];
        try discriminate Hin; assumption. }
    destruct (engine_events w (args.audio_path a) (args.model a)
                (args.language a) (args.device a) (args.compute_type a))
      as [[Hnone|Hone] _]; cbv zeta in *.
    - rewrite Hnone in Hf. destruct Hf.
    - rewrite Hone in Hf. destruct Hf as [Hf|[]]. injection Hf as <-.
      reflexivity. }
  split.
  - intros Hdev.
    assert (Hfb : falls_back w (args.device a) = false)
      by (rewrite Hdev; reflexivity).
    split; [|split].
    + intros ma Hin. rewrite (Hbuilt ma Hin).
      unfold device_in_force, compute_type_in_force. rewrite Hfb, Hdev.
      reflexivity.
    + intros Hlib Hfile Htorch. rewrite main_cases. cbv zeta.
      rewrite transcribe_audio_checked by assumption.
      unfold device_check_events, device_in_force, compute_type_in_force.
      rewrite Hfb, Hdev, cpu_is_not_cuda. cbn [events result fst snd app].
      engine_cases; cbn [events result fst snd app];
        try (destruct e as [msg|msg|code]); cbn [trace app In]; auto 12.
    + intros Hin.
      pose proof (cpu_run_never_warns_of_fallback w a Hdev) as Hall.
      rewrite Forall_forall in Hall. apply Hall in Hin.
      discriminate Hin.
  - intros ma Hin Hct. rewrite (Hbuilt ma Hin) in Hct. cbn [compute_type model_args] in Hct.
    unfold compute_type_in_force, falls_back in Hct.
    destruct (eqb (args.device a) (lit "cuda")) eqn:Hd;
      [|contradiction].
    destruct (torch_cuda_is_available w); [contradiction|].
    apply eqb_eq in Hd. auto.
Qed.

Lemma cpu_keeps_requested_compute_type_witness :
  In (NewWhisperModel
        {| model_size_or_path := lit "small";
           device := lit "cpu";
           compute_type := lit "float32";
           cpu_threads := 4;
           num_workers := 1 |})
     (trace (main Samples.speech_machine Samples.cpu_float32_args)).
Proof.
  exact (proj1 (proj2
    (proj1 (cpu_keeps_requested_compute_type Samples.speech_machine
              Samples.cpu_float32_args) eq_refl))
    eq_refl eq_refl eq_refl).
Defined.

(** ** Further properties of the script *)

Import More.

(** *** Blank texts and the transcript *)

Lemma lstrip_nil_iff (s : str) : lstrip s = [] <-> blank s = true.
Proof.
  induction s as [|c s IH]; simpl.
  - tauto.
  - destruct (isspace c); simpl.
    + exact IH.
    + split; discriminate.
Qed.

Lemma blank_app (s1 s2 : str) : blank (s1 ++ s2) = blank s1 && blank s2.
Proof. apply forallb_app. Qed.

Lemma blank_rev (s : str) : blank (rev s) = blank s.
Proof.
  induction s as [|c s IH]; simpl.
  - reflexivity.
  - rewrite blank_app, IH. simpl. rewrite andb_true_r. apply andb_comm.
Qed.

Lemma blank_lstrip (s : str) : blank (lstrip s) = blank s.
Proof.
  induction s as [|c s IH]; simpl.
  - reflexivity.
  - destruct (isspace c) eqn:E; simpl.
    + exact IH.
    + rewrite E. reflexivity.
Qed.

Lemma rev_nil_iff {A : Type} (l : list A) : rev l = [] <-> l = [].
Proof.
  split; intros H.
  - rewrite <- (rev_involutive l), H. reflexivity.
  - rewrite H. reflexivity.
Qed.

Lemma strip_nil_iff (s : str) : strip s = [] <-> blank s = true.
Proof.
  unfold strip, rstrip.
  rewrite <- (blank_lstrip s), <- (blank_rev (lstrip s)).
  rewrite <- (lstrip_nil_iff (rev (lstrip s))).
  apply rev_nil_iff.
Qed.





Lemma lstrip_fixed (s : str) : no_leading_space s -> lstrip s = s.
Proof.
  destruct s as [|c s]; intros H; simpl.
  - reflexivity.
  - rewrite (H c s eq_refl). reflexivity.
Qed.

Lemma strip_fixed (s : str) :
  no_leading_space s -> no_trailing_space s -> strip s = s.
Proof.
  intros Hl Ht. unfold strip, rstrip. rewrite (lstrip_fixed s Hl).
  rewrite lstrip_fixed, rev_involutive; [reflexivity|].
  intros c r E. apply (Ht c (rev r)).
  rewrite <- (rev_involutive s), E. reflexivity.
Qed.

Lemma join_ends_with_last (sep : str) (before : list str) (q : str) :
  exists pre, join sep (before ++ [q]) = pre ++ q.
Proof.
  induction before as [|p before [pre IH]].
  - exists []. reflexivity.
  - destruct before as [|p' before'].
    + exists (p ++ sep). simpl. rewrite <- app_assoc. reflexivity.
    + exists (p ++ sep ++ pre).
      change (join sep ((p :: p' :: before') ++ [q]))
        with (p ++ sep ++ join sep ((p' :: before') ++ [q])).
      rewrite IH, <- !app_assoc. reflexivity.
Qed.

Lemma join_starts_with_first (sep p : str) (after : list str) :
  exists post, join sep (p :: after) = p ++ post.
Proof.
  destruct after as [|q after].
  - exists []. simpl. rewrite app_nil_r. reflexivity.
  - exists (sep ++ join sep (q :: after)). reflexivity.
Qed.

Lemma not_blank_strip_cons (s : str) :
  blank s = false -> exists c r, strip s = c :: r.
Proof.
  intros H. destruct (strip s) as [|c r] eqn:E.
  - apply strip_nil_iff in E. congruence.
  - eauto.
Qed.

Lemma not_blank_strip_snoc (s : str) :
  blank s = false -> exists r c, strip s = r ++ [c].
Proof.
  intros H. destruct (not_blank_strip_cons s H) as (c & r & E).
  destruct (exists_last (l := strip s)) as (r' & c' & E').
  - rewrite E. discriminate.
  - eauto.
Qed.



(** X2.  When the first and the last segment hold text that is not blank,
    the trim after the join removes nothing: the returned transcript is the
    trimmed segment texts joined by single spaces.  A blank segment in
    between is kept as an empty part, so the transcript then has two
    spaces in a row. *)
Theorem transcript_is_plain_join_when_ends_not_blank (w : World)
    (p m : str) (l : option str) (d c : str) (model : Model)
    (segments : Segments) (i : info.t) (first last : str)
    (after before : list str) :
  import_faster_whisper w = None ->
  os_path_exists w p = true ->
  import_torch w = None ->
  WhisperModel w
    (model_args m (device_in_force w d) (compute_type_in_force w d c))
    = inr model ->
  transcribe model (transcribe_args p l) = inr (segments, i) ->
  then_raises segments = None ->
  map segment.text (yields segments) = first :: after ->
  map segment.text (yields segments) = before ++ [last] ->
  blank first = false ->
  blank last = false ->
  result (transcribe_audio w p m l d c) =
  inr (join (lit " ") (map strip (map segment.text (yields segments)))).
Proof.
  intros Hlib Hfile Htorch Hmodel Hcall Hend Hfirst Hlast Hbf Hbl.
  rewrite (transcribe_audio_answered w p m l d c model segments i)
    by assumption.
  cbn [result snd]. rewrite (from_segments_result segments Hend).
  unfold final_transcript. f_equal. apply strip_fixed.
  - rewrite Hfirst. cbn [map].
    destruct (join_starts_with_first (lit " ") (strip first)
                (map strip after)) as [post ->].
    destruct (not_blank_strip_cons first Hbf) as (c0 & r0 & E0).
    intros ch rest E. rewrite E0 in E. injection E as <- _.
    apply (strip_no_leading_space first c0 r0 E0).
  - rewrite Hlast, map_app. cbn [map].
    destruct (join_ends_with_last (lit " ") (map strip before)
                (strip last)) as [pre ->].
    destruct (not_blank_strip_snoc last Hbl) as (r0 & c0 & E0).
    intros ch rest E. rewrite E0, app_assoc in E.
    apply app_inj_tail in E. destruct E as [_ <-].
    apply (strip_no_trailing_space last c0 r0 E0).
Qed.

Lemma transcript_is_plain_join_when_ends_not_blank_witness :
  result (transcribe_audio pause_machine (lit "talk.wav") (lit "small") None
            (lit "cpu") (lit "int8")) =
  inr (lit "one  two").
Proof.
  exact (transcript_is_plain_join_when_ends_not_blank pause_machine
           (lit "talk.wav") (lit "small") None (lit "cpu") (lit "int8")
           (Samples.engine_yielding
              [Samples.seg "one "; Samples.seg "   "; Samples.seg " two"]
              None)
           {| yields :=
                [Samples.seg "one "; Samples.seg "   "; Samples.seg " two"];
              then_raises := None |}
           Samples.english
           (lit "one ") (lit " two") [lit "   "; lit " two"]
           [lit "one "; lit "   "]
           eq_refl eq_refl eq_refl eq_refl eq_refl eq_refl
           eq_refl eq_refl eq_refl eq_refl).
Defined.

(** *** Failing imports *)

(** X3.  When [import torch] fails with an exception of class [Exception]
    (a missing module, say), the handler of [main] reports it: the run
    stops after the file check with "ERROR: " and the exception's message
    on standard error and status 1; the accelerator is not probed, no
    engine is built and standard output stays empty. *)
Theorem torch_import_failure_is_reported (w : World) (a : args.t) (e : exn)
    (message : str) :
  import_faster_whisper w = None ->
  os_path_exists w (args.audio_path a) = true ->
  import_torch w = Some e ->
  as_Exception e = Some message ->
  trace (main w a) =
    [ImportModule (lit "faster_whisper"); PathExists (args.audio_path a);
     ImportModule (lit "torch");
     Print Stderr (lit "ERROR: " ++ message)] /\
  exit_status (main w a) = 1%Z /\
  stdout (main w a) = [].
Proof.
  intros Hlib Hfile Htorch Hclass.
  rewrite stdout_main, exit_status_main, main_cases. cbv zeta.
  rewrite (transcribe_audio_torch_raises w _ _ _ _ _ e Hlib Hfile Htorch).
  destruct e as [msg|msg|code]; try discriminate Hclass;
    injection Hclass as ->; repeat split.
Qed.

Lemma torch_import_failure_is_reported_witness :
  stderr (main no_torch_machine Samples.default_args) =
  lit "ERROR: No module named 'torch'" ++ newline.
Proof.
  exact (f_equal (output Stderr)
    (proj1
       (torch_import_failure_is_reported no_torch_machine
          Samples.default_args
          (ImportError (lit "No module named 'torch'"))
          (lit "No module named 'torch'")
          eq_refl eq_refl eq_refl eq_refl))).
Defined.

(** X4.  The [except ImportError] clause handles [ImportError] only.  When
    importing the library raises another exception of class [Exception],
    the install hint is not printed: the exception reaches [main], which
    prints "ERROR: " and its message and exits with status 1, before the
    audio file is looked at. *)
Theorem library_import_crash_reaches_main (w : World) (a : args.t)
    (message : str) :
  import_faster_whisper w = Some (Exception message) ->
  trace (main w a) =
    [ImportModule (lit "faster_whisper");
     Print Stderr (lit "ERROR: " ++ message)] /\
  exit_status (main w a) = 1%Z /\
  stdout (main w a) = [].
Proof.
  intros Hlib.
  rewrite stdout_main, exit_status_main, main_cases. cbv zeta.
  rewrite (transcribe_audio_import_raises w _ _ _ _ _ _ Hlib eq_refl).
  repeat split.
Qed.

Lemma library_import_crash_reaches_main_witness :
  stderr (main broken_library_machine Samples.default_args) =
  lit "ERROR: libctranslate2.so: cannot open" ++ newline.
Proof.
  exact (f_equal (output Stderr)
    (proj1
       (library_import_crash_reaches_main broken_library_machine
          Samples.default_args (lit "libctranslate2.so: cannot open")
          eq_refl))).
Defined.

(** *** Exit status, standard output and ERROR lines *)

(** X5.  In every run, a non-zero exit status means that standard output is
    empty, and anything on standard output is the returned transcript
    followed by the line terminator, with exit status 0. *)
Theorem nonzero_exit_means_empty_stdout (w : World) (a : args.t) :
  (exit_status (main w a) <> 0%Z -> stdout (main w a) = []) /\
  (stdout (main w a) <> [] ->
   exit_status (main w a) = 0%Z /\
   exists transcription,
     result (transcribe_audio w (args.audio_path a) (args.model a)
               (args.language a) (args.device a) (args.compute_type a))
       = inr transcription /\
     stdout (main w a) = transcription ++ newline).
Proof.
  rewrite stdout_main, exit_status_main.
  destruct (result _) as [e|t].
  - split; [reflexivity|]. intros H. contradiction H. reflexivity.
  - split.
    + intros H. contradiction H. reflexivity.
    + intros _. split; [reflexivity|]. exists t. split; reflexivity.
Qed.

Lemma nonzero_exit_means_empty_stdout_witness :
  stdout (main Samples.no_file_machine Samples.default_args) = [].
Proof.
  apply (proj1 (nonzero_exit_means_empty_stdout Samples.no_file_machine
                  Samples.default_args)).
  vm_compute. discriminate.
Defined.





(** *** The device check and the engine *)

(** Every engine a run builds gets the arguments in force after the device
    check. *)
Lemma built_engine_args (w : World) (a : args.t) (ma : ModelArgs) :
  In (NewWhisperModel ma) (trace (main w a)) ->
  ma = model_args (args.model a) (device_in_force w (args.device a))
         (compute_type_in_force w (args.device a) (args.compute_type a)).
Proof.
  intros Hin.
  assert (Hf : In (NewWhisperModel ma)
                 (filter is_NewWhisperModel
                    (events (transcribe_audio w (args.audio_path a)
                               (args.model a) (args.language a)
                               (args.device a) (args.compute_type a))))).
  { apply filter_In. split; [|reflexivity].
    rewrite main_cases in Hin. cbv zeta in Hin.
    destruct (result _) as [[msg|msg|code]|t]; cbn [trace] in Hin;
      try apply in_app_or in Hin; try destruct Hin as [Hin|[Hin|[]]];
      try discriminate Hin; assumption. }
  destruct (engine_events w (args.audio_path a) (args.model a)
              (args.language a) (args.device a) (args.compute_type a))
    as [[Hnone|Hone] _]; cbv zeta in *.
  - rewrite Hnone in Hf. destruct Hf.
  - rewrite Hone in Hf. destruct Hf as [Hf|[]]. injection Hf as <-.
    reflexivity.
Qed.

Lemma run_without_fallback_never_warns (w : World) (a : args.t) :
  falls_back w (args.device a) = false ->
  Forall (fun ev => is_fallback_warning ev = false) (trace (main w a)).
Proof.
  intros Hfb. rewrite main_cases. cbv zeta.
  audio_cases w (args.audio_path a) (args.model a) (args.language a)
    (args.device a) (args.compute_type a);
    try (events_without_fallback; fail).
  - destruct e as [msg|msg|code]; events_without_fallback.
  - unfold device_check_events. rewrite Hfb.
    engine_cases; try (destruct e as [msg|msg|code]);
      destruct (eqb (args.device a) (lit "cuda"));
      events_without_fallback.
Qed.

(** X7.  The accelerator is probed only for the device "cuda": with any
    other device argument [torch.cuda.is_available] is never called, and no
    run calls it more than once.  With device "cuda" it is called (once) as
    soon as the three checks before it pass. *)
Theorem probe_is_called_only_for_cuda (w : World) (a : args.t) :
  (args.device a <> lit "cuda" ->
   filter is_CudaIsAvailable (trace (main w a)) = []) /\
  (List.length (filter is_CudaIsAvailable (trace (main w a))) <= 1)%nat /\
  (args.device a = lit "cuda" ->
   import_faster_whisper w = None ->
   os_path_exists w (args.audio_path a) = true ->
   import_torch w = None ->
   filter is_CudaIsAvailable (trace (main w a)) = [CudaIsAvailable]).
Proof.
  assert (Hcount :
    filter is_CudaIsAvailable (trace (main w a)) =
    match import_faster_whisper w, os_path_exists w (args.audio_path a),
          import_torch w with
    | None, true, None =>
        if eqb (args.device a) (lit "cuda") then [CudaIsAvailable] else []
    | _, _, _ => []
    end).
  { rewrite main_cases. cbv zeta.
    audio_cases w (args.audio_path a) (args.model a) (args.language a)
      (args.device a) (args.compute_type a);
      cbn [events result fst snd trace]; try reflexivity.
    - destruct e as [msg|msg|code]; reflexivity.
    - unfold device_check_events.
      engine_cases; cbn [events result fst snd];
        try (destruct e as [msg|msg|code]); cbn [trace];
        destruct (eqb (args.device a) (lit "cuda")),
                 (falls_back w (args.device a)); reflexivity. }
  rewrite Hcount. clear Hcount. split; [|split].
  - intros Hdev.
    destruct (eqb (args.device a) (lit "cuda")) eqn:E.
    + apply eqb_eq in E. contradiction.
    + destruct (import_faster_whisper w);
        [reflexivity|destruct (os_path_exists w (args.audio_path a));
                     [destruct (import_torch w)|]; reflexivity].
  - destruct (import_faster_whisper w);
      [cbn; lia|destruct (os_path_exists w (args.audio_path a));
                [destruct (import_torch w);
                 [|destruct (eqb (args.device a) (lit "cuda"))]|]; cbn; lia].
  - intros Hdev Hlib Hfile Htorch. rewrite Hlib, Hfile, Htorch, Hdev.
    reflexivity.
Qed.

Lemma probe_is_called_only_for_cuda_witness :
  filter is_CudaIsAvailable
    (trace (main cuda_machine Samples.cpu_float32_args)) = [] /\
  filter is_CudaIsAvailable
    (trace (main cuda_machine cuda_float16_args)) = [CudaIsAvailable].
Proof.
  split.
  - apply (proj1 (probe_is_called_only_for_cuda cuda_machine
                    Samples.cpu_float32_args)).
    intros E. vm_compute in E. discriminate E.
  - exact (proj2 (proj2 (probe_is_called_only_for_cuda cuda_machine
                           cuda_float16_args))
             eq_refl eq_refl eq_refl eq_refl).
Defined.

(** X8.  With device "cuda" on a machine where CUDA is available nothing is
    downgraded: the only engine ever built gets device "cuda" and the
    compute type of the command line, it is built once the checks pass, and
    the fallback warning is not printed. *)
Theorem cuda_available_keeps_device_and_compute_type (w : World)
    (a : args.t) :
  args.device a = lit "cuda" ->
  torch_cuda_is_available w = true ->
  (forall ma, In (NewWhisperModel ma) (trace (main w a)) ->
     ma = {| model_size_or_path := args.model a;
             device := lit "cuda";
             compute_type := args.compute_type a;
             cpu_threads := 4;
             num_workers := 1 |}) /\
  (import_faster_whisper w = None ->
   os_path_exists w (args.audio_path a) = true ->
   import_torch w = None ->
   In (NewWhisperModel
         {| model_size_or_path := args.model a;
            device := lit "cuda";
            compute_type := args.compute_type a;
            cpu_threads := 4;
            num_workers := 1 |})
      (trace (main w a))) /\
  ~ In (Print Stderr (lit "WARNING: CUDA not available, falling back to CPU"))
       (trace (main w a)).
Proof.
  intros Hdev Hcuda.
  assert (Hfb : falls_back w (args.device a) = false)
    by (unfold falls_back; rewrite Hcuda, andb_false_r; reflexivity).
  split; [|split].
  - intros ma Hin. rewrite (built_engine_args w a ma Hin).
    unfold device_in_force, compute_type_in_force. rewrite Hfb, Hdev.
    reflexivity.
  - intros Hlib Hfile Htorch. rewrite main_cases. cbv zeta.
    rewrite transcribe_audio_checked by assumption.
    unfold device_check_events, device_in_force, compute_type_in_force.
    rewrite Hfb, Hdev, eqb_refl. cbn [events result fst snd app].
    engine_cases; cbn [events result fst snd app];
      try (destruct e as [msg|msg|code]); cbn [trace app In]; auto 12.
  - intros Hin.
    pose proof (run_without_fallback_never_warns w a Hfb) as Hall.
    rewrite Forall_forall in Hall. apply Hall in Hin. discriminate Hin.
Qed.

Lemma cuda_available_keeps_device_and_compute_type_witness :
  In (NewWhisperModel
        {| model_size_or_path := lit "small";
           device := lit "cuda";
           compute_type := lit "float16";
           cpu_threads := 4;
           num_workers := 1 |})
     (trace (main cuda_machine cuda_float16_args)).
Proof.
  exact (proj1 (proj2
    (cuda_available_keeps_device_and_compute_type cuda_machine
       cuda_float16_args eq_refl eq_refl))
    eq_refl eq_refl eq_refl).
Defined.

(** X9.  Whatever the command line and the machine, an engine that a run
    builds gets the model size of the command line, 4 CPU threads and 1
    worker, and it gets device "cuda" only when the device argument was
    "cuda" and the probe reported CUDA available. *)
Theorem engine_is_never_built_for_missing_cuda (w : World) (a : args.t)
    (ma : ModelArgs) :
  In (NewWhisperModel ma) (trace (main w a)) ->
  model_size_or_path ma = args.model a /\
  cpu_threads ma = 4%Z /\
  num_workers ma = 1%Z /\
  (device ma = lit "cuda" ->
   args.device a = lit "cuda" /\ torch_cuda_is_available w = true).
Proof.
  intros Hin. rewrite (built_engine_args w a ma Hin).
  split; [reflexivity|split; [reflexivity|split; [reflexivity|]]].
  cbn [device model_args]. unfold device_in_force, falls_back.
  destruct (eqb (args.device a) (lit "cuda")) eqn:Hd;
    destruct (torch_cuda_is_available w); cbn [andb negb]; intros H.
  - split; [apply eqb_eq; exact Hd | reflexivity].
  - discriminate H.
  - rewrite H in Hd. discriminate Hd.
  - rewrite H in Hd. discriminate Hd.
Qed.

Lemma engine_is_never_built_for_missing_cuda_witness :
  args.device cuda_float16_args = lit "cuda" /\
  torch_cuda_is_available cuda_machine = true.
Proof.
  refine (proj2 (proj2 (proj2
    (engine_is_never_built_for_missing_cuda cuda_machine cuda_float16_args
       (model_args (lit "small") (lit "cuda") (lit "float16")) _)))
    eq_refl).
  vm_compute. auto 12.
Defined.

(** X10.  An engine is built only after all three checks have passed: if a
    run builds one, the library and torch were imported and the audio file
    exists. *)
Theorem engine_is_built_only_after_the_checks (w : World) (a : args.t)
    (ma : ModelArgs) :
  In (NewWhisperModel ma) (trace (main w a)) ->
  import_faster_whisper w = None /\
  os_path_exists w (args.audio_path a) = true /\
  import_torch w = None.
Proof.
  rewrite main_cases. cbv zeta.
  audio_cases w (args.audio_path a) (args.model a) (args.language a)
    (args.device a) (args.compute_type a);
    cbn [events result fst snd trace app In];
    try (intros H; repeat (destruct H as [H|H]; [discriminate H|]);
         destruct H).
  - destruct e as [msg|msg|code]; cbn [trace In];
      intros H; repeat (destruct H as [H|H]; [discriminate H|]);
      destruct H.
  - intros _. auto.
Qed.

Lemma engine_is_built_only_after_the_checks_witness :
  os_path_exists Samples.speech_machine (lit "talk.wav") = true.
Proof.
  refine (proj1 (proj2
    (engine_is_built_only_after_the_checks Samples.speech_machine
       Samples.default_args
       (model_args (lit "small") (lit "cpu") (lit "int8")) _))).
  vm_compute. auto 12.
Defined.

(** X11.  In every run the engine is built at most once, [transcribe] is
    called at most once and only on an engine that was built, and standard
    output is written at most once and only after [transcribe] was
    called. *)
Theorem engine_steps_happen_at_most_once_in_order (w : World) (a : args.t) :
  (List.length (filter is_NewWhisperModel (trace (main w a))) <= 1)%nat /\
  (List.length (filter is_Transcribe (trace (main w a))) <=
   List.length (filter is_NewWhisperModel (trace (main w a))))%nat /\
  (List.length (filter (is_Print Stdout) (trace (main w a))) <=
   List.length (filter is_Transcribe (trace (main w a))))%nat.
Proof.
  rewrite main_cases. cbv zeta.
  audio_cases w (args.audio_path a) (args.model a) (args.language a)
    (args.device a) (args.compute_type a);
    cbn [events result fst snd trace]; try (cbn; lia).
  - destruct e as [msg|msg|code]; cbn; lia.
  - unfold device_check_events.
    engine_cases; cbn [events result fst snd];
      try (destruct e as [msg|msg|code]); cbn [trace];
      destruct (eqb (args.device a) (lit "cuda")),
               (falls_back w (args.device a)); cbn; lia.
Qed.

(** X12.  The values the fallback puts in place ("cpu", "int8") are among
    the choices the argument parser accepts: for a command line whose
    device and compute type are among the parser's choices, every engine
    built gets a device and a compute type among those choices. *)
Theorem engine_arguments_stay_within_choices (w : World) (a : args.t)
    (ma : ModelArgs) :
  In (args.device a) device_choices ->
  In (args.compute_type a) compute_type_choices ->
  In (NewWhisperModel ma) (trace (main w a)) ->
  In (device ma) device_choices /\
  In (compute_type ma) compute_type_choices.
Proof.
  intros Hd Hc Hin. rewrite (built_engine_args w a ma Hin).
  cbn [device compute_type model_args].
  unfold device_in_force, compute_type_in_force.
  destruct (falls_back w (args.device a)).
  - split; [right; left; reflexivity | left; reflexivity].
  - split; assumption.
Qed.

Lemma engine_arguments_stay_within_choices_witness :
  In (lit "cpu") device_choices /\ In (lit "int8") compute_type_choices.
Proof.
  refine (engine_arguments_stay_within_choices Samples.speech_machine
            cuda_float16_args
            (model_args (lit "small") (lit "cpu") (lit "int8")) _ _ _).
  - left. reflexivity.
  - right. left. reflexivity.
  - vm_compute. auto 12.
Defined.


